(** * The landing page [src/pages/Index.tsx]

    A shallow embedding of the [Index] component: the two literal arrays
    [learningPaths] and [features], the helper [getDifficultyColor], and the
    JSX expression the component returns.  The value of a JSX expression is a
    React element tree; it is embedded as the inductive type [Node].  The
    imported components ([Card], [Badge], [Button], the icons) are not
    expanded by [Index]: they occur in the tree as element types. *)

From Stdlib Require Import String Ascii.
From stdpp Require Import base option list strings.

#[local] Set Warnings "-register-all".
Local Open Scope string_scope.

(** ** React elements *)

(** The components [Index.tsx] imports from the card, badge and button modules
    and the icons it imports from the icon library. *)
Inductive Component :=
  | Card | CardContent | CardDescription | CardHeader | CardTitle
  | Badge
  | Button
  | BookOpen | Code | Users | Zap | Target | Trophy | ArrowRight | FileText.

(** The type of an element: a lower-case JSX tag is a host element named by a
    string, a capitalised one refers to an imported component. *)
Inductive ElementType :=
  | Host (tag : string)
  | Comp (c : Component).

(** The [key] attribute: [key={index}] in the two card lists and in the topic
    badges, [key={tech}] in the technology tiles. *)
Inductive Key :=
  | KeyIndex (index : nat)
  | KeyString (s : string).

(** The attributes other than [key], in source order; every attribute value in
    [Index.tsx] is a string. *)
Definition Props := list (string * string).

(** A child of a JSX element is a piece of text, an element, or an array of
    nodes (what [{xs.map(...)}] evaluates to). *)
Inductive Node :=
  | Text (s : string)
  | Element (type : ElementType) (key : option Key) (props : Props)
            (children : list Node)
  | Items (elems : list Node).

#[global] Instance Component_eq_dec : EqDecision Component.
Proof. solve_decision. Defined.
#[global] Instance ElementType_eq_dec : EqDecision ElementType.
Proof. solve_decision. Defined.
#[global] Instance Key_eq_dec : EqDecision Key.
Proof. solve_decision. Defined.

(** JSX shorthands: [<tag className=cls>children</tag>] for host elements
    and for components. *)
Definition host (tag : string) (className : string) (children : list Node) : Node :=
  Element (Host tag) None [("className", className)] children.

Definition comp (c : Component) (props : Props) (children : list Node) : Node :=
  Element (Comp c) None props children.

(** ** The static data *)

(** The element type of [learningPaths]. *)
Module LearningPath.
Record t := {
  title : string;
  description : string;
  icon : Node;
  topics : list string;
  difficulty : string;
  color : string
}.
End LearningPath.

(** The element type of [features]. *)
Module Feature.
Record t := {
  icon : Node;
  title : string;
  description : string
}.
End Feature.

Definition learningPaths : list LearningPath.t := [
  {| LearningPath.title := "HTML Fundamentals";
     LearningPath.description := "Master semantic markup and accessibility";
     LearningPath.icon := comp FileText [("className", "w-6 h-6")] [];
     LearningPath.topics := ["Semantic Elements"; "Forms & Validation"; "Accessibility"; "SEO Basics"];
     LearningPath.difficulty := "Beginner";
     LearningPath.color := "bg-orange-500" |};
  {| LearningPath.title := "CSS Mastery";
     LearningPath.description := "Modern styling with layouts and animations";
     LearningPath.icon := comp Code [("className", "w-6 h-6")] [];
     LearningPath.topics := ["Flexbox & Grid"; "Responsive Design"; "Animations"; "Custom Properties"];
     LearningPath.difficulty := "Intermediate";
     LearningPath.color := "bg-blue-500" |};
  {| LearningPath.title := "JavaScript Essentials";
     LearningPath.description := "Core language features and modern patterns";
     LearningPath.icon := comp Zap [("className", "w-6 h-6")] [];
     LearningPath.topics := ["ES6+ Features"; "Async/Await"; "DOM Manipulation"; "Error Handling"];
     LearningPath.difficulty := "Intermediate";
     LearningPath.color := "bg-yellow-500" |};
  {| LearningPath.title := "TypeScript Guide";
     LearningPath.description := "Type-safe JavaScript development";
     LearningPath.icon := comp Target [("className", "w-6 h-6")] [];
     LearningPath.topics := ["Types & Interfaces"; "Generics"; "React Integration"; "Advanced Patterns"];
     LearningPath.difficulty := "Advanced";
     LearningPath.color := "bg-indigo-500" |};
  {| LearningPath.title := "React Development";
     LearningPath.description := "Component-based UI development";
     LearningPath.icon := comp Users [("className", "w-6 h-6")] [];
     LearningPath.topics := ["Components & Hooks"; "State Management"; "Performance"; "Testing"];
     LearningPath.difficulty := "Intermediate";
     LearningPath.color := "bg-cyan-500" |};
  {| LearningPath.title := "Next.js Framework";
     LearningPath.description := "Full-stack React applications";
     LearningPath.icon := comp BookOpen [("className", "w-6 h-6")] [];
     LearningPath.topics := ["App Router"; "Server Components"; "API Routes"; "Optimization"];
     LearningPath.difficulty := "Advanced";
     LearningPath.color := "bg-purple-500" |}
].

Definition features : list Feature.t := [
  {| Feature.icon := comp BookOpen [("className", "w-8 h-8 text-blue-600")] [];
     Feature.title := "Comprehensive Guides";
     Feature.description := "In-depth documentation covering all essential frontend technologies" |};
  {| Feature.icon := comp Code [("className", "w-8 h-8 text-green-600")] [];
     Feature.title := "Practical Examples";
     Feature.description := "Real-world code examples with detailed explanations" |};
  {| Feature.icon := comp Target [("className", "w-8 h-8 text-purple-600")] [];
     Feature.title := "Best Practices";
     Feature.description := "Industry-standard patterns and proven methodologies" |};
  {| Feature.icon := comp Trophy [("className", "w-8 h-8 text-yellow-600")] [];
     Feature.title := "Common Pitfalls";
     Feature.description := "Learn from mistakes and avoid common development traps" |}
].

(** ** [getDifficultyColor] *)

(** The clauses of the [switch] statement. *)
Inductive Clause := CaseBeginner | CaseIntermediate | CaseAdvanced | CaseDefault.

(** Clause selection: the discriminant is compared with each case label in
    source order by strict equality, which on strings is equality of the
    character sequences; no label matching selects [default].  (Strings are
    sequences of bytes here; the labels are ASCII, and two strings are equal
    exactly when their encodings are.) *)
Definition select_clause (difficulty : string) : Clause :=
  if String.eqb difficulty "Beginner" then CaseBeginner
  else if String.eqb difficulty "Intermediate" then CaseIntermediate
  else if String.eqb difficulty "Advanced" then CaseAdvanced
  else CaseDefault.

(** Each clause is a single [return] of a string literal. *)
Definition clause_return (c : Clause) : string :=
  match c with
  | CaseBeginner => "bg-green-100 text-green-800"
  | CaseIntermediate => "bg-yellow-100 text-yellow-800"
  | CaseAdvanced => "bg-red-100 text-red-800"
  | CaseDefault => "bg-gray-100 text-gray-800"
  end.

Definition getDifficultyColor (difficulty : string) : string :=
  clause_return (select_clause difficulty).

(** ** Evaluation over a store *)

(** [learningPaths] and [features] are arrays, which in the source language
    are mutable objects.  The store holds the contents of the two arrays the
    component's [const] declarations bind; an evaluation is a function from
    the store before it to its value and the store after it, so that a step
    which assigned to an array, or to a field of one of its elements, would
    show in the store it returns. *)
Record Store := {
  st_learningPaths : list LearningPath.t;
  st_features : list Feature.t
}.

Definition Eval (A : Type) : Type := Store -> A * Store.

Definition ret {A} (a : A) : Eval A := fun s => (a, s).

Definition bind {A B} (m : Eval A) (k : A -> Eval B) : Eval B :=
  fun s => let (a, s') := m s in k a s'.

Notation "'let*' x := m 'in' k" := (bind m (fun x => k))
  (at level 10, x name, m at level 100, k at level 200, only parsing).

(** [const learningPaths = [...]] and [const features = [...]]: the array
    literal is evaluated and bound. *)
Definition declare_learningPaths (init : list LearningPath.t) : Eval unit :=
  fun s => (tt, {| st_learningPaths := init; st_features := st_features s |}).

Definition declare_features (init : list Feature.t) : Eval unit :=
  fun s => (tt, {| st_learningPaths := st_learningPaths s; st_features := init |}).

(** [Array.prototype.map]: the length is read once, then for each index [k]
    below it, in ascending order, the element at [k] is read from the array
    as it is at that moment and the callback is called with the element and
    [k]; the results are collected in order.  [arr] selects the array in the
    store.  An index at which the array has no element any more is skipped,
    so that the result is then shorter than the length read at the start
    (the source language leaves a hole at that index and keeps the length);
    no callback of [Index.tsx] removes elements, and every statement below
    about [Array_map] is about callbacks that leave the store alone. *)
Fixpoint map_from {A B} (arr : Store -> list A) (callbackfn : A -> nat -> Eval B)
    (k remaining : nat) : Eval (list B) :=
  match remaining with
  | O => ret []
  | S remaining' =>
      fun s =>
        match arr s !! k with
        | Some kValue =>
            (let* mappedValue := callbackfn kValue k in
             let* rest := map_from arr callbackfn (S k) remaining' in
             ret (mappedValue :: rest)) s
        | None => map_from arr callbackfn (S k) remaining' s
        end
  end.

Definition Array_map {A B} (arr : Store -> list A) (callbackfn : A -> nat -> Eval B)
    : Eval (list B) :=
  fun s => map_from arr callbackfn 0 (length (arr s)) s.

(** ** The JSX of the component *)

(** The body of the callback of [features.map]. *)
Definition featureCard (feature : Feature.t) (index : nat) : Node :=
  Element (Comp Card) (Some (KeyIndex index))
    [("className", "text-center border-0 shadow-lg hover:shadow-xl transition-all duration-300 hover:-translate-y-1")]
    [ comp CardHeader []
        [ host "div" "flex justify-center mb-4" [ Feature.icon feature ];
          comp CardTitle [("className", "text-xl")] [ Text (Feature.title feature) ] ];
      comp CardContent []
        [ comp CardDescription [("className", "text-base")]
            [ Text (Feature.description feature) ] ] ].

(** The body of the callback of [path.topics.map]. *)
Definition topicBadge (topic : string) (topicIndex : nat) : Node :=
  Element (Comp Badge) (Some (KeyIndex topicIndex))
    [("variant", "secondary"); ("className", "text-xs")]
    [ Text topic ].

(** The body of the callback of [learningPaths.map]; [topicBadges] is the
    value of the nested [path.topics.map(...)]. *)
Definition learningPathCard (path : LearningPath.t) (index : nat)
    (topicBadges : list Node) : Node :=
  Element (Comp Card) (Some (KeyIndex index))
    [("className", "group hover:shadow-xl transition-all duration-300 hover:-translate-y-2 border-0 shadow-lg overflow-hidden")]
    [ host "div" ("h-2 " +:+ LearningPath.color path) [];
      comp CardHeader [("className", "pb-4")]
        [ host "div" "flex items-start justify-between"
            [ host "div" ("p-3 rounded-lg " +:+ LearningPath.color path +:+ " text-white mb-4")
                [ LearningPath.icon path ];
              comp Badge [("className", getDifficultyColor (LearningPath.difficulty path))]
                [ Text (LearningPath.difficulty path) ] ];
          comp CardTitle [("className", "text-xl group-hover:text-blue-600 transition-colors")]
            [ Text (LearningPath.title path) ];
          comp CardDescription [("className", "text-base")]
            [ Text (LearningPath.description path) ] ];
      comp CardContent []
        [ host "div" "space-y-3"
            [ host "div" "flex flex-wrap gap-2" [ Items topicBadges ];
              comp Button [("className", "w-full mt-4 group-hover:bg-blue-600 transition-colors")]
                [ Text "Start Learning";
                  comp ArrowRight [("className", "w-4 h-4 ml-2")] [] ] ] ] ].

(** The array literal of the documentation preview section and the body of
    the callback of its [map]. *)
Definition technologies : list string :=
  ["HTML"; "CSS"; "JavaScript"; "TypeScript"; "React"; "Next.js"; "TailwindCSS"; "Testing"].

Definition techTile (tech : string) : Node :=
  Element (Host "div") (Some (KeyString tech))
    [("className", "bg-white/10 backdrop-blur-sm rounded-lg p-3 text-center")]
    [ host "span" "font-medium" [ Text tech ] ].

(** The hero section.  (JSX text that spans several lines loses the white
    space around its line breaks; text on the line of a tag keeps its
    spaces.) *)
Definition heroSection : Node :=
  host "section" "relative overflow-hidden bg-white"
    [ host "div" "absolute inset-0 bg-gradient-to-r from-blue-600/10 to-purple-600/10" [];
      host "div" "relative container mx-auto px-4 py-20"
        [ host "div" "text-center max-w-4xl mx-auto"
            [ host "div" "inline-flex items-center gap-2 bg-blue-100 text-blue-800 px-4 py-2 rounded-full text-sm font-medium mb-6"
                [ comp BookOpen [("className", "w-4 h-4")] [];
                  Text "Frontend Developer Learning Hub" ];
              host "h1" "text-5xl md:text-6xl font-bold text-gray-900 mb-6 leading-tight"
                [ Text "Master Modern";
                  host "span" "text-transparent bg-clip-text bg-gradient-to-r from-blue-600 to-purple-600"
                    [ Text " Frontend" ];
                  Element (Host "br") None [] [];
                  Text "Development" ];
              host "p" "text-xl text-gray-600 mb-8 leading-relaxed"
                [ Text "Comprehensive guides, practical examples, and best practices for HTML, CSS, JavaScript, React, TypeScript, Next.js, TailwindCSS, and testing frameworks." ];
              host "div" "flex flex-col sm:flex-row gap-4 justify-center"
                [ comp Button [("size", "lg"); ("className", "text-lg px-8 py-3")]
                    [ Text "Start Learning";
                      comp ArrowRight [("className", "w-5 h-5 ml-2")] [] ];
                  comp Button [("variant", "outline"); ("size", "lg"); ("className", "text-lg px-8 py-3")]
                    [ Text "View Documentation" ] ] ] ] ].

(** The features section; [featureCards] is the value of
    [features.map(...)]. *)
Definition featuresSection (featureCards : list Node) : Node :=
  host "section" "py-20"
    [ host "div" "container mx-auto px-4"
        [ host "div" "text-center mb-16"
            [ host "h2" "text-3xl md:text-4xl font-bold text-gray-900 mb-4"
                [ Text "Everything You Need to Excel" ];
              host "p" "text-lg text-gray-600 max-w-2xl mx-auto"
                [ Text "Our learning platform provides structured guidance for developers at every stage" ] ];
          host "div" "grid grid-cols-1 md:grid-cols-2 lg:grid-cols-4 gap-8"
            [ Items featureCards ] ] ].

(** The learning paths section; [pathCards] is the value of
    [learningPaths.map(...)]. *)
Definition learningPathsSection (pathCards : list Node) : Node :=
  host "section" "py-20 bg-white"
    [ host "div" "container mx-auto px-4"
        [ host "div" "text-center mb-16"
            [ host "h2" "text-3xl md:text-4xl font-bold text-gray-900 mb-4"
                [ Text "Learning Paths" ];
              host "p" "text-lg text-gray-600 max-w-2xl mx-auto"
                [ Text "Structured guides to take you from beginner to expert in frontend development" ] ];
          host "div" "grid grid-cols-1 md:grid-cols-2 lg:grid-cols-3 gap-8"
            [ Items pathCards ] ] ].

(** The documentation preview section; [techTiles] is the value of the [map]
    over the literal list of technologies. *)
Definition documentationSection (techTiles : list Node) : Node :=
  host "section" "py-20 bg-gradient-to-r from-blue-600 to-purple-600 text-white"
    [ host "div" "container mx-auto px-4"
        [ host "div" "max-w-4xl mx-auto text-center"
            [ host "h2" "text-3xl md:text-4xl font-bold mb-6"
                [ Text "Detailed Documentation Available" ];
              host "p" "text-xl mb-8 opacity-90"
                [ Text "Access comprehensive guides with code examples, best practices, and common pitfalls for each technology." ];
              host "div" "grid grid-cols-2 md:grid-cols-4 gap-4 mb-8"
                [ Items techTiles ];
              comp Button [("size", "lg"); ("variant", "secondary"); ("className", "text-lg px-8 py-3")]
                [ Text "View All Documentation";
                  comp FileText [("className", "w-5 h-5 ml-2")] [] ] ] ] ].

(** The call-to-action section. *)
Definition ctaSection : Node :=
  host "section" "py-20"
    [ host "div" "container mx-auto px-4"
        [ comp Card [("className", "max-w-4xl mx-auto text-center border-0 shadow-2xl bg-gradient-to-r from-slate-50 to-blue-50")]
            [ comp CardHeader [("className", "pb-8")]
                [ comp CardTitle [("className", "text-3xl md:text-4xl font-bold text-gray-900 mb-4")]
                    [ Text "Ready to Level Up Your Skills?" ];
                  comp CardDescription [("className", "text-lg text-gray-600")]
                    [ Text "Join thousands of developers who have mastered frontend development with our comprehensive guides" ] ];
              comp CardContent []
                [ host "div" "flex flex-col sm:flex-row gap-4 justify-center"
                    [ comp Button [("size", "lg"); ("className", "text-lg px-8 py-3")]
                        [ Text "Get Started Now";
                          comp ArrowRight [("className", "w-5 h-5 ml-2")] [] ];
                      comp Button [("variant", "outline"); ("size", "lg"); ("className", "text-lg px-8 py-3")]
                        [ Text "Browse Documentation" ] ] ] ] ] ].

(** The root element of the returned JSX, given the values of its three
    embedded [map] expressions. *)
Definition page (featureCards pathCards techTiles : list Node) : Node :=
  host "div" "min-h-screen bg-gradient-to-br from-slate-50 to-blue-50"
    [ heroSection;
      featuresSection featureCards;
      learningPathsSection pathCards;
      documentationSection techTiles;
      ctaSection ].

(** The [return] statement: the embedded expressions are evaluated in source
    order, each [map] reading its array from the store. *)
Definition Index_return : Eval Node :=
  let* featureCards :=
    Array_map st_features (fun feature index => ret (featureCard feature index)) in
  let* pathCards :=
    Array_map st_learningPaths (fun path index =>
      let* topicBadges :=
        Array_map (fun _ => LearningPath.topics path)
          (fun topic topicIndex => ret (topicBadge topic topicIndex)) in
      ret (learningPathCard path index topicBadges)) in
  let* techTiles :=
    Array_map (fun _ => technologies) (fun tech _ => ret (techTile tech)) in
  ret (page featureCards pathCards techTiles).

(** The component: the two declarations, then the [return] statement.  (The
    declaration of [getDifficultyColor] binds a function and is the
    definition above.) *)
Definition Index : Eval Node :=
  let* _ := declare_learningPaths learningPaths in
  let* _ := declare_features features in
  Index_return.


(** ** Observing a rendered tree *)

(** The children of a node. *)
Definition children_of (n : Node) : list Node :=
  match n with
  | Text _ => []
  | Element _ _ _ children => children
  | Items elems => elems
  end.

(** The node reached from [n] by following child positions. *)
Fixpoint node_at (position : list nat) (n : Node) : option Node :=
  match position with
  | [] => Some n
  | i :: position' =>
      match children_of n !! i with
      | Some child => node_at position' child
      | None => None
      end
  end.

(** All text and element nodes of a tree, in document order. *)
Fixpoint descendants (n : Node) : list Node :=
  match n with
  | Text _ => [n]
  | Element _ _ _ children => n :: flat_map descendants children
  | Items elems => flat_map descendants elems
  end.

(** The text of a tree, in document order. *)
Definition textContent (n : Node) : string :=
  foldr (fun d acc => match d with Text s => s +:+ acc | _ => acc end) ""
        (descendants n).

Definition attribute (name : string) (n : Node) : option string :=
  match n with
  | Element _ _ props _ =>
      (fun found => snd (snd found)) <$> list_find (fun kv => fst kv = name) props
  | _ => None
  end.

(** [n] is an element of type [type] whose class attribute is [className]. *)
Definition is_element (type : ElementType) (className : string) (n : Node) : bool :=
  match n with
  | Element type' _ _ _ =>
      bool_decide (type' = type) && bool_decide (attribute "className" n = Some className)
  | _ => false
  end.

(** The elements of a tree of the given type and class, in document order. *)
Definition elements_of (type : ElementType) (className : string) (n : Node) : list Node :=
  List.filter (is_element type className) (descendants n).

(** The class attributes that tell the three kinds of generated elements
    apart from everything else on the page. *)
Definition featureCardClass : string :=
  "text-center border-0 shadow-lg hover:shadow-xl transition-all duration-300 hover:-translate-y-1".
Definition learningPathCardClass : string :=
  "group hover:shadow-xl transition-all duration-300 hover:-translate-y-2 border-0 shadow-lg overflow-hidden".
Definition techTileClass : string :=
  "bg-white/10 backdrop-blur-sm rounded-lg p-3 text-center".

Definition rendered_feature_cards (out : Node) : list Node :=
  elements_of (Comp Card) featureCardClass out.
Definition rendered_learning_path_cards (out : Node) : list Node :=
  elements_of (Comp Card) learningPathCardClass out.
Definition rendered_tech_tiles (out : Node) : list Node :=
  elements_of (Host "div") techTileClass out.

(** Where the three generated arrays sit in the returned tree: section,
    container, grid, and the array itself as the grid's only child. *)
Definition features_grid : list nat := [1; 0; 1; 0].
Definition learning_paths_grid : list nat := [2; 0; 1; 0].
Definition technologies_grid : list nat := [3; 0; 0; 2; 0].

Definition items_at (position : list nat) (out : Node) : list Node :=
  match node_at position out with
  | Some (Items elems) => elems
  | _ => []
  end.

(** ** The labels and tokens of [getDifficultyColor] *)

Definition knownLabels : list string := ["Beginner"; "Intermediate"; "Advanced"].



(** ** Specification vocabulary for evaluations *)

(** An evaluation that leaves the store as it found it. *)
Definition preserves_store {A} (m : Eval A) : Prop := forall s, snd (m s) = s.

(** An evaluation that leaves the store as it is and whose value does not
    depend on it. *)
Definition pure_value {A} (m : Eval A) (a : A) : Prop := forall s, m s = (a, s).

(** The values of the three [map] expressions, as functions of the arrays. *)
Definition featureCards_of (fs : list Feature.t) : list Node :=
  imap (fun index feature => featureCard feature index) fs.

Definition topicBadges_of (ts : list string) : list Node :=
  imap (fun topicIndex topic => topicBadge topic topicIndex) ts.

Definition learningPathCards_of (lps : list LearningPath.t) : list Node :=
  imap (fun index path =>
          learningPathCard path index (topicBadges_of (LearningPath.topics path))) lps.

Definition techTiles_of (techs : list string) : list Node :=
  imap (fun _ tech => techTile tech) techs.

(** The store after the two declarations. *)
Definition declared_store : Store :=
  {| st_learningPaths := learningPaths; st_features := features |}.

(** ** Further observations of a rendered tree *)

(** The [key] attribute of an element. *)
Definition key_of (n : Node) : option Key :=
  match n with
  | Element _ key _ _ => key
  | _ => None
  end.

(** The text of a list of nodes, in order ([textContent] is the text of the
    descendants of a node). *)
Definition text_of (ds : list Node) : string :=
  foldr (fun d acc => match d with Text s => s +:+ acc | _ => acc end) "" ds.

(** Inside a learning-path card: the badge showing the difficulty (header,
    top row, second element) and the array of topic badges (content, stack,
    wrapping row, its only child). *)
Definition difficulty_badge : list nat := [1; 0; 1].
Definition topic_badges : list nat := [2; 0; 0; 0].

(** The elements of the given type and class among a list of trees. *)
Definition elements_among (type : ElementType) (className : string)
    (ns : list Node) : list Node :=
  flat_map (elements_of type className) ns.

(** No generated card and no technology tile occurs inside [icon]. *)
Definition generated_free (icon : Node) : Prop :=
  rendered_feature_cards icon = [] ∧
  rendered_learning_path_cards icon = [] ∧
  rendered_tech_tiles icon = [].

(** ** What a card shows *)

(** The text node at a position, and the class attribute of the element at a
    position. *)
Definition text_at (position : list nat) (n : Node) : option string :=
  match node_at position n with
  | Some (Text t) => Some t
  | _ => None
  end.

Definition class_at (position : list nat) (n : Node) : option string :=
  match node_at position n with
  | Some element => attribute "className" element
  | None => None
  end.

(** What is read off a feature card: its key, the node in the icon row of
    the header, the text of the card title and the text of the card
    description. *)
Module FeatureView.
Record t := {
  key : option Key;
  icon : option Node;
  title : option string;
  description : option string
}.
End FeatureView.

Definition view_feature_card (card : Node) : FeatureView.t :=
  {| FeatureView.key := key_of card;
     FeatureView.icon := node_at [0; 0; 0] card;
     FeatureView.title := text_at [0; 1; 0] card;
     FeatureView.description := text_at [1; 0; 0] card |}.

(** What is read off a learning-path card: its key, the class of the colour
    stripe, the class of the icon box and the node inside it, the class and
    the text of the difficulty badge, the texts of the card title and of the
    card description, and the texts of the topic badges. *)
Module PathView.
Record t := {
  key : option Key;
  stripe_class : option string;
  icon_box_class : option string;
  icon : option Node;
  badge_class : option string;
  badge_text : option string;
  title : option string;
  description : option string;
  topics : list string
}.
End PathView.

Definition view_learning_path_card (card : Node) : PathView.t :=
  {| PathView.key := key_of card;
     PathView.stripe_class := class_at [0] card;
     PathView.icon_box_class := class_at [1; 0; 0] card;
     PathView.icon := node_at [1; 0; 0; 0] card;
     PathView.badge_class := class_at difficulty_badge card;
     PathView.badge_text := text_at [1; 0; 1; 0] card;
     PathView.title := text_at [1; 1; 0] card;
     PathView.description := text_at [1; 2; 0] card;
     PathView.topics := textContent <$> items_at topic_badges card |}.

(** * Evaluation lemmas *)


(** Membership in a literal list. *)
Ltac in_literal := rewrite ?elem_of_cons, ?elem_of_nil; tauto.

Lemma select_clause_default (difficulty : string) :
  difficulty ∉ knownLabels -> select_clause difficulty = CaseDefault.
Proof.
  intros Hnot. unfold select_clause.
  destruct (String.eqb_spec difficulty "Beginner") as [->|_].
  { exfalso. apply Hnot. unfold knownLabels. in_literal. }
  destruct (String.eqb_spec difficulty "Intermediate") as [->|_].
  { exfalso. apply Hnot. unfold knownLabels. in_literal. }
  destruct (String.eqb_spec difficulty "Advanced") as [->|_].
  { exfalso. apply Hnot. unfold knownLabels. in_literal. }
  reflexivity.
Qed.

Lemma getDifficultyColor_other (difficulty : string) :
  difficulty ∉ knownLabels -> getDifficultyColor difficulty = "bg-gray-100 text-gray-800".
Proof.
  intros Hnot. unfold getDifficultyColor.
  rewrite (select_clause_default difficulty Hnot). reflexivity.
Qed.

Lemma ret_pure {A} (a : A) : pure_value (ret a) a.
Proof. intros s. reflexivity. Qed.

Lemma bind_pure {A B} (m : Eval A) (k : A -> Eval B) (a : A) (b : B) :
  pure_value m a -> pure_value (k a) b -> pure_value (bind m k) b.
Proof. intros Hm Hk s. unfold bind. rewrite Hm. apply Hk. Qed.

Lemma pure_preserves {A} (m : Eval A) (a : A) : pure_value m a -> preserves_store m.
Proof. intros Hm s. rewrite Hm. reflexivity. Qed.

Lemma bind_preserves {A B} (m : Eval A) (k : A -> Eval B) :
  preserves_store m -> (forall a, preserves_store (k a)) -> preserves_store (bind m k).
Proof.
  intros Hm Hk s. unfold bind.
  specialize (Hm s). destruct (m s) as [a s']. simpl in Hm. subst s'. apply Hk.
Qed.

(** The loop of [map] changes the store only if the callback does. *)
Lemma map_from_preserves {A B} (arr : Store -> list A) (callbackfn : A -> nat -> Eval B) :
  (forall a i, preserves_store (callbackfn a i)) ->
  forall remaining k, preserves_store (map_from arr callbackfn k remaining).
Proof.
  intros Hcb. induction remaining as [|n IH]; intros k s; [reflexivity|].
  simpl. destruct (arr s !! k) as [kValue|]; [|apply IH].
  apply (bind_preserves (callbackfn kValue k)); [apply Hcb|].
  intros mappedValue. apply bind_preserves; [apply IH|].
  intros rest s'. reflexivity.
Qed.

Lemma Array_map_preserves {A B} (arr : Store -> list A) (callbackfn : A -> nat -> Eval B) :
  (forall a i, preserves_store (callbackfn a i)) ->
  preserves_store (Array_map arr callbackfn).
Proof. intros Hcb s. unfold Array_map. apply map_from_preserves, Hcb. Qed.

(** With a callback that computes [f] and leaves the store alone, the loop
    started at index [k] yields the images of the elements from [k] on. *)
Lemma map_from_value {A B} (arr : Store -> list A) (callbackfn : A -> nat -> Eval B)
    (f : A -> nat -> B) :
  (forall a i, pure_value (callbackfn a i) (f a i)) ->
  forall remaining k s,
    map_from arr callbackfn k remaining s
    = (imap (fun j a => f a (k + j)) (take remaining (drop k (arr s))), s).
Proof.
  intros Hcb. induction remaining as [|n IH]; intros k s; [reflexivity|].
  simpl. destruct (arr s !! k) as [kValue|] eqn:Hk.
  - unfold bind. rewrite Hcb, IH. unfold ret.
    rewrite (drop_S _ _ _ Hk). simpl. rewrite Nat.add_0_r.
    f_equal. f_equal. apply imap_ext. intros j a _. simpl. f_equal. lia.
  - rewrite IH. apply lookup_ge_None in Hk.
    rewrite !drop_ge by lia. rewrite !take_nil. reflexivity.
Qed.

Lemma Array_map_value {A B} (arr : Store -> list A) (callbackfn : A -> nat -> Eval B)
    (f : A -> nat -> B) :
  (forall a i, pure_value (callbackfn a i) (f a i)) ->
  forall s, Array_map arr callbackfn s = (imap (fun i a => f a i) (arr s), s).
Proof.
  intros Hcb s. unfold Array_map. rewrite (map_from_value _ _ f Hcb).
  rewrite drop_0, firstn_all. reflexivity.
Qed.

Lemma learningPath_callback_pure (path : LearningPath.t) (index : nat) :
  pure_value
    (let* topicBadges :=
       Array_map (fun _ => LearningPath.topics path)
         (fun topic topicIndex => ret (topicBadge topic topicIndex)) in
     ret (learningPathCard path index topicBadges))
    (learningPathCard path index (topicBadges_of (LearningPath.topics path))).
Proof.
  eapply bind_pure; [|apply ret_pure].
  intros s.
  exact (Array_map_value (fun _ => LearningPath.topics path) _ topicBadge
           (fun topic topicIndex => ret_pure _) s).
Qed.

(** The [return] statement yields the page built from the arrays in the
    store, and hands the store back as it received it. *)
Lemma Index_return_value (s : Store) :
  Index_return s
  = (page (featureCards_of (st_features s))
          (learningPathCards_of (st_learningPaths s))
          (techTiles_of technologies), s).
Proof.
  unfold Index_return, bind.
  rewrite (Array_map_value st_features _ featureCard) by (intros; apply ret_pure).
  rewrite (Array_map_value st_learningPaths _
             (fun path index =>
                learningPathCard path index (topicBadges_of (LearningPath.topics path))))
    by apply learningPath_callback_pure.
  rewrite (Array_map_value (fun _ => technologies) _ (fun tech _ => techTile tech))
    by (intros; apply ret_pure).
  reflexivity.
Qed.

(** The frame rule for the [return] statement: none of its callbacks writes
    to the store, hence neither do the [map] loops that call them. *)
Lemma Index_return_preserves : preserves_store Index_return.
Proof.
  unfold Index_return.
  apply bind_preserves.
  { apply Array_map_preserves. intros feature index.
    apply (pure_preserves _ _ (ret_pure _)). }
  intros featureCards. apply bind_preserves.
  { apply Array_map_preserves. intros path index.
    apply (pure_preserves _ _ (learningPath_callback_pure path index)). }
  intros pathCards. apply bind_preserves.
  { apply Array_map_preserves. intros tech index.
    apply (pure_preserves _ _ (ret_pure _)). }
  intros techTiles. apply (pure_preserves _ _ (ret_pure _)).
Qed.

Lemma Index_value (s : Store) :
  Index s
  = (page (featureCards_of features) (learningPathCards_of learningPaths)
          (techTiles_of technologies), declared_store).
Proof.
  unfold Index, bind, declare_learningPaths, declare_features.
  rewrite Index_return_value. reflexivity.
Qed.

(** * Properties of [getDifficultyColor] *)

(** C1.  Each of the three labels is mapped to its own fixed style token:
    "Beginner" to the green one, "Intermediate" to the yellow one and
    "Advanced" to the red one; "Unknown", and every other string that is
    none of the three labels, is mapped to the default gray token. *)
Theorem getDifficultyColor_spec :
  getDifficultyColor "Beginner" = "bg-green-100 text-green-800" ∧
  getDifficultyColor "Intermediate" = "bg-yellow-100 text-yellow-800" ∧
  getDifficultyColor "Advanced" = "bg-red-100 text-red-800" ∧
  getDifficultyColor "Unknown" = "bg-gray-100 text-gray-800" ∧
  ∀ difficulty : string,
    difficulty ∉ ["Beginner"; "Intermediate"; "Advanced"] →
    getDifficultyColor difficulty = "bg-gray-100 text-gray-800".
Proof.
  repeat split; try reflexivity.
  exact getDifficultyColor_other.
Qed.

(** The default clause at a concrete string that is none of the labels. *)
Lemma getDifficultyColor_spec_witness :
  ("Expert" ∉ ["Beginner"; "Intermediate"; "Advanced"]) ∧
  getDifficultyColor "Expert" = "bg-gray-100 text-gray-800".
Proof.
  assert (Hnot : "Expert" ∉ ["Beginner"; "Intermediate"; "Advanced"]).
  { intros Hin. repeat (apply elem_of_cons in Hin as [Hin|Hin]; [discriminate Hin|]).
    apply elem_of_nil in Hin. exact Hin. }
  split; [exact Hnot|].
  destruct getDifficultyColor_spec as (_ & _ & _ & _ & Hdefault).
  apply Hdefault. exact Hnot.
Defined.

(** C2.  [getDifficultyColor] returns a style token for every input string:
    the result is always one of the four string literals of the [switch],
    and an input that is none of the three labels is handled by the
    [default] clause, which returns the gray token. *)
Theorem getDifficultyColor_total (difficulty : string) :
  getDifficultyColor difficulty
    ∈ ["bg-green-100 text-green-800"; "bg-yellow-100 text-yellow-800";
       "bg-red-100 text-red-800"; "bg-gray-100 text-gray-800"]
  ∧ (difficulty ∈ ["Beginner"; "Intermediate"; "Advanced"]
     ∨ (select_clause difficulty = CaseDefault
        ∧ getDifficultyColor difficulty = "bg-gray-100 text-gray-800")).
Proof.
  split.
  - unfold getDifficultyColor. destruct (select_clause difficulty); simpl; in_literal.
  - destruct (decide (difficulty ∈ knownLabels)) as [Hin|Hnot]; [left; exact Hin|].
    right. split; [apply select_clause_default | apply getDifficultyColor_other]; exact Hnot.
Qed.





(** * Properties of the rendered page *)

(** The three generated arrays are found at their grids. *)
Lemma items_at_page (featureCards pathCards techTiles : list Node) :
  items_at features_grid (page featureCards pathCards techTiles) = featureCards ∧
  items_at learning_paths_grid (page featureCards pathCards techTiles) = pathCards ∧
  items_at technologies_grid (page featureCards pathCards techTiles) = techTiles.
Proof. split; [|split]; reflexivity. Qed.

Lemma featureCards_are_cards (fs : list Feature.t) :
  Forall (fun card => is_element (Comp Card) featureCardClass card = true)
         (featureCards_of fs).
Proof.
  apply Forall_forall. intros card Hin.
  apply elem_of_lookup_imap_1 in Hin as (i & feature & -> & _). reflexivity.
Qed.

Lemma learningPathCards_are_cards (lps : list LearningPath.t) :
  Forall (fun card => is_element (Comp Card) learningPathCardClass card = true)
         (learningPathCards_of lps).
Proof.
  apply Forall_forall. intros card Hin.
  apply elem_of_lookup_imap_1 in Hin as (i & path & -> & _). reflexivity.
Qed.

(** C3.  Whatever the two arrays hold, the features grid of the returned
    tree holds one feature card per element of [features] and the learning
    paths grid holds one learning-path card per element of [learningPaths];
    and on the page [Index] renders, the feature cards number
    [length features] and the learning-path cards [length learningPaths],
    counted over the whole tree. *)
Theorem card_counts (s : Store) :
  (length (items_at features_grid (fst (Index_return s))) = length (st_features s) ∧
   Forall (fun card => is_element (Comp Card) featureCardClass card = true)
          (items_at features_grid (fst (Index_return s))) ∧
   length (items_at learning_paths_grid (fst (Index_return s)))
     = length (st_learningPaths s) ∧
   Forall (fun card => is_element (Comp Card) learningPathCardClass card = true)
          (items_at learning_paths_grid (fst (Index_return s)))) ∧
  (length (rendered_feature_cards (fst (Index s))) = length features ∧
   length (rendered_learning_path_cards (fst (Index s))) = length learningPaths).
Proof.
  split.
  - rewrite Index_return_value. simpl fst.
    destruct (items_at_page (featureCards_of (st_features s))
                (learningPathCards_of (st_learningPaths s))
                (techTiles_of technologies)) as (-> & -> & _).
    unfold featureCards_of at 1, learningPathCards_of at 1. rewrite !length_imap.
    split; [reflexivity|]. split; [apply featureCards_are_cards|].
    split; [reflexivity|]. apply learningPathCards_are_cards.
  - rewrite Index_value. split; vm_compute; reflexivity.
Qed.

Lemma append_empty_r (s : string) : s +:+ "" = s.
Proof.
  induction s as [|c s IH]; [reflexivity|].
  change (String c (s +:+ "") = String c s). rewrite IH. reflexivity.
Qed.

Lemma topicBadge_text (topic : string) (topicIndex : nat) :
  textContent (topicBadge topic topicIndex) = topic.
Proof. unfold textContent. simpl. apply append_empty_r. Qed.

Lemma topicBadges_text (ts : list string) : textContent <$> topicBadges_of ts = ts.
Proof.
  unfold topicBadges_of. rewrite fmap_imap.
  rewrite (imap_ext _ (const id) ts) by (intros; apply topicBadge_text).
  rewrite imap_const. apply list_fmap_id.
Qed.

(** What the views read off the cards the two callbacks build. *)
Lemma featureCard_view (feature : Feature.t) (index : nat) :
  view_feature_card (featureCard feature index)
  = {| FeatureView.key := Some (KeyIndex index);
       FeatureView.icon := Some (Feature.icon feature);
       FeatureView.title := Some (Feature.title feature);
       FeatureView.description := Some (Feature.description feature) |}.
Proof. reflexivity. Qed.

Lemma learningPathCard_view (path : LearningPath.t) (index : nat) :
  view_learning_path_card
    (learningPathCard path index (topicBadges_of (LearningPath.topics path)))
  = {| PathView.key := Some (KeyIndex index);
       PathView.stripe_class := Some ("h-2 " +:+ LearningPath.color path);
       PathView.icon_box_class :=
         Some ("p-3 rounded-lg " +:+ LearningPath.color path +:+ " text-white mb-4");
       PathView.icon := Some (LearningPath.icon path);
       PathView.badge_class := Some (getDifficultyColor (LearningPath.difficulty path));
       PathView.badge_text := Some (LearningPath.difficulty path);
       PathView.title := Some (LearningPath.title path);
       PathView.description := Some (LearningPath.description path);
       PathView.topics := LearningPath.topics path |}.
Proof.
  unfold view_learning_path_card.
  change (items_at topic_badges (learningPathCard path index _))
    with (topicBadges_of (LearningPath.topics path)).
  rewrite topicBadges_text. reflexivity.
Qed.

(** C4.  The cards are rendered in the order of the arrays and none is left
    out: whatever the arrays hold, position [i] of the features grid holds
    the card the callback builds from element [i] of [features] and index
    [i] (and nothing when the array has no element [i]), and likewise for
    [learningPaths]; on the page [Index] renders, the feature cards and the
    learning-path cards of the whole tree, in document order, are exactly
    these.  The card at position [i] shows element [i]: read off the card,
    its key is [i], and its icon, title and description are those of
    element [i] of [features]; for [learningPaths] its key is [i], its
    stripe and icon box carry the colour of element [i], its icon, title and
    description are those of element [i], its badge shows the difficulty of
    element [i] in the style [getDifficultyColor] gives it, and its topic
    badges show the topics of element [i] in order. *)
Theorem cards_in_order (s : Store) (i : nat) :
  (items_at features_grid (fst (Index_return s)) !! i
     = (fun feature => featureCard feature i) <$> st_features s !! i ∧
   items_at learning_paths_grid (fst (Index_return s)) !! i
     = (fun path => learningPathCard path i
                      (imap (fun topicIndex topic => topicBadge topic topicIndex)
                            (LearningPath.topics path)))
         <$> st_learningPaths s !! i) ∧
  (rendered_feature_cards (fst (Index s)) !! i
     = (fun feature => featureCard feature i) <$> features !! i ∧
   rendered_learning_path_cards (fst (Index s)) !! i
     = (fun path => learningPathCard path i
                      (imap (fun topicIndex topic => topicBadge topic topicIndex)
                            (LearningPath.topics path)))
         <$> learningPaths !! i) ∧
  (view_feature_card <$> items_at features_grid (fst (Index_return s)) !! i
     = (fun feature =>
          {| FeatureView.key := Some (KeyIndex i);
             FeatureView.icon := Some (Feature.icon feature);
             FeatureView.title := Some (Feature.title feature);
             FeatureView.description := Some (Feature.description feature) |})
         <$> st_features s !! i ∧
   view_learning_path_card
       <$> items_at learning_paths_grid (fst (Index_return s)) !! i
     = (fun path =>
          {| PathView.key := Some (KeyIndex i);
             PathView.stripe_class := Some ("h-2 " +:+ LearningPath.color path);
             PathView.icon_box_class :=
               Some ("p-3 rounded-lg " +:+ LearningPath.color path
                     +:+ " text-white mb-4");
             PathView.icon := Some (LearningPath.icon path);
             PathView.badge_class :=
               Some (getDifficultyColor (LearningPath.difficulty path));
             PathView.badge_text := Some (LearningPath.difficulty path);
             PathView.title := Some (LearningPath.title path);
             PathView.description := Some (LearningPath.description path);
             PathView.topics := LearningPath.topics path |})
         <$> st_learningPaths s !! i) ∧
  (view_feature_card <$> rendered_feature_cards (fst (Index s)) !! i
     = (fun feature =>
          {| FeatureView.key := Some (KeyIndex i);
             FeatureView.icon := Some (Feature.icon feature);
             FeatureView.title := Some (Feature.title feature);
             FeatureView.description := Some (Feature.description feature) |})
         <$> features !! i ∧
   view_learning_path_card <$> rendered_learning_path_cards (fst (Index s)) !! i
     = (fun path =>
          {| PathView.key := Some (KeyIndex i);
             PathView.stripe_class := Some ("h-2 " +:+ LearningPath.color path);
             PathView.icon_box_class :=
               Some ("p-3 rounded-lg " +:+ LearningPath.color path
                     +:+ " text-white mb-4");
             PathView.icon := Some (LearningPath.icon path);
             PathView.badge_class :=
               Some (getDifficultyColor (LearningPath.difficulty path));
             PathView.badge_text := Some (LearningPath.difficulty path);
             PathView.title := Some (LearningPath.title path);
             PathView.description := Some (LearningPath.description path);
             PathView.topics := LearningPath.topics path |})
         <$> learningPaths !! i).
Proof.
  assert (Hgrids :
    items_at features_grid (fst (Index_return s)) = featureCards_of (st_features s) ∧
    items_at learning_paths_grid (fst (Index_return s))
      = learningPathCards_of (st_learningPaths s)).
  { rewrite Index_return_value. simpl fst.
    destruct (items_at_page (featureCards_of (st_features s))
                (learningPathCards_of (st_learningPaths s))
                (techTiles_of technologies)) as (-> & -> & _).
    split; reflexivity. }
  assert (Hpage :
    rendered_feature_cards (fst (Index s)) = featureCards_of features ∧
    rendered_learning_path_cards (fst (Index s)) = learningPathCards_of learningPaths).
  { rewrite Index_value. simpl fst. split; vm_compute; reflexivity. }
  destruct Hgrids as [-> ->]. destruct Hpage as [-> ->].
  unfold featureCards_of, learningPathCards_of. rewrite !list_lookup_imap.
  split; [split; reflexivity|]. split; [split; reflexivity|].
  split; split.
  - destruct (st_features s !! i) as [feature|]; [|reflexivity].
    exact (f_equal Some (featureCard_view feature i)).
  - destruct (st_learningPaths s !! i) as [path|]; [|reflexivity].
    exact (f_equal Some (learningPathCard_view path i)).
  - destruct (features !! i) as [feature|]; [|reflexivity].
    exact (f_equal Some (featureCard_view feature i)).
  - destruct (learningPaths !! i) as [path|]; [|reflexivity].
    exact (f_equal Some (learningPathCard_view path i)).
Qed.

(** C5.  Rendering is deterministic and idempotent: the tree [Index] returns
    is the same whatever the store it is evaluated in; evaluating [Index]
    again in the store a first evaluation left gives the same tree and the
    same store; and the [return] statement evaluated a second time over the
    same arrays gives the same tree. *)
Theorem Index_deterministic (s1 s2 : Store) :
  fst (Index s1) = fst (Index s2) ∧
  Index (snd (Index s1)) = Index s1 ∧
  fst (Index_return (snd (Index_return s1))) = fst (Index_return s1).
Proof.
  split; [|split].
  - rewrite !Index_value. reflexivity.
  - rewrite !Index_value. reflexivity.
  - rewrite !Index_return_value. reflexivity.
Qed.

(** C6.  Every element of [learningPaths] has one of the three labels as its
    difficulty, so the [switch] never selects its [default] clause for it;
    and no badge of the rendered page carries the default token. *)
Theorem learningPaths_difficulty_known :
  Forall (fun path =>
            LearningPath.difficulty path ∈ ["Beginner"; "Intermediate"; "Advanced"]
            ∧ select_clause (LearningPath.difficulty path) ≠ CaseDefault)
         learningPaths
  ∧ ∀ s : Store,
      elements_of (Comp Badge) "bg-gray-100 text-gray-800" (fst (Index s)) = [].
Proof.
  split.
  - unfold learningPaths.
    repeat (apply Forall_cons; split;
            [ split; [ simpl; in_literal | vm_compute; discriminate ] | ]).
    apply Forall_nil. exact I.
  - intros s. rewrite Index_value. vm_compute. reflexivity.
Qed.

(** C7.  Rendering does not change the arrays: the [return] statement,
    with its three [map] calls and the calls of [getDifficultyColor], hands
    back the store it was given, whatever the arrays hold; after a whole
    evaluation of [Index] the two arrays are the two array literals, element
    by element and field by field. *)
Theorem Index_leaves_arrays_unchanged (s : Store) :
  snd (Index_return s) = s ∧
  st_learningPaths (snd (Index s)) = learningPaths ∧
  st_features (snd (Index s)) = features.
Proof.
  split; [apply Index_return_preserves|].
  rewrite Index_value. split; reflexivity.
Qed.

(** C10.  The documentation preview renders exactly eight technology tiles,
    one per element of the literal list and in its order: HTML, CSS,
    JavaScript, TypeScript, React, Next.js, TailwindCSS, Testing. *)
Theorem technology_tiles (s : Store) :
  length (rendered_tech_tiles (fst (Index s))) = 8 ∧
  rendered_tech_tiles (fst (Index s))
    = techTile <$> ["HTML"; "CSS"; "JavaScript"; "TypeScript"; "React"; "Next.js";
                    "TailwindCSS"; "Testing"] ∧
  textContent <$> rendered_tech_tiles (fst (Index s))
    = ["HTML"; "CSS"; "JavaScript"; "TypeScript"; "React"; "Next.js";
       "TailwindCSS"; "Testing"] ∧
  items_at technologies_grid (fst (Index s)) = rendered_tech_tiles (fst (Index s)).
Proof.
  rewrite Index_value. simpl fst.
  split; [|split; [|split]]; vm_compute; reflexivity.
Qed.

(** * Further properties of [getDifficultyColor] *)

(** X1.  Each token is returned for exactly one kind of input: the green
    token only for "Beginner", the yellow one only for "Intermediate", the
    red one only for "Advanced", and the gray one exactly for the strings
    that are none of the three labels. *)
Theorem getDifficultyColor_inverse (difficulty : string) :
  (getDifficultyColor difficulty = "bg-green-100 text-green-800"
     ↔ difficulty = "Beginner") ∧
  (getDifficultyColor difficulty = "bg-yellow-100 text-yellow-800"
     ↔ difficulty = "Intermediate") ∧
  (getDifficultyColor difficulty = "bg-red-100 text-red-800"
     ↔ difficulty = "Advanced") ∧
  (getDifficultyColor difficulty = "bg-gray-100 text-gray-800"
     ↔ difficulty ∉ ["Beginner"; "Intermediate"; "Advanced"]).
Proof.
  unfold getDifficultyColor, select_clause.
  destruct (String.eqb_spec difficulty "Beginner") as [->|Hb];
    [|destruct (String.eqb_spec difficulty "Intermediate") as [->|Hi];
      [|destruct (String.eqb_spec difficulty "Advanced") as [->|Ha]]];
    simpl; (split; [|split; [|split]]); (split; intros H);
    first [ reflexivity | discriminate H | contradiction
          | exfalso; apply H; in_literal
          | revert H; in_literal ].
Qed.

(** X2.  Whatever the input, the token is a background class and a text
    class of one and the same colour, in the shades 100 and 800. *)
Theorem getDifficultyColor_token_shape (difficulty : string) :
  ∃ colour : string,
    colour ∈ ["green"; "yellow"; "red"; "gray"] ∧
    getDifficultyColor difficulty
      = "bg-" +:+ colour +:+ "-100 text-" +:+ colour +:+ "-800".
Proof.
  unfold getDifficultyColor. destruct (select_clause difficulty).
  - exists "green". split; [in_literal | reflexivity].
  - exists "yellow". split; [in_literal | reflexivity].
  - exists "red". split; [in_literal | reflexivity].
  - exists "gray". split; [in_literal | reflexivity].
Qed.

Lemma append_length (s1 s2 : string) :
  String.length (s1 +:+ s2) = String.length s1 + String.length s2.
Proof.
  induction s1 as [|c s1 IH]; [reflexivity|].
  change (S (String.length (s1 +:+ s2)) = S (String.length s1 + String.length s2)).
  rewrite IH. reflexivity.
Qed.

(** A label with something before it or after it is not a label. *)
Lemma extended_label_unknown (label extra : string) :
  label ∈ knownLabels -> extra ≠ "" ->
  (label +:+ extra ∉ knownLabels) ∧ (extra +:+ label ∉ knownLabels).
Proof.
  intros Hlabel Hextra.
  assert (Hlen : 0 < String.length extra).
  { destruct extra; [contradiction|]. simpl. lia. }
  split; intros Hin; unfold knownLabels in *;
    repeat (apply elem_of_cons in Hlabel as [->|Hlabel]);
    try (apply elem_of_nil in Hlabel; contradiction);
    repeat (apply elem_of_cons in Hin as [Hin|Hin]);
    try (apply elem_of_nil in Hin; contradiction);
    try (apply (f_equal String.length) in Hin as Hl;
         rewrite append_length in Hl; simpl in Hl; lia);
    try (cbv [String.append] in Hin; discriminate Hin).
  all: do 5 (destruct extra as [|? extra]; try (simpl in Hlen; lia);
             try (cbv [String.append] in Hin; discriminate Hin)).
  all: apply (f_equal String.length) in Hin; rewrite ?append_length in Hin;
       simpl in Hin; rewrite ?append_length in Hin; simpl in Hin; lia.
Qed.

(** X3.  Only the exact label is recognised; nothing is trimmed: a label
    followed or preceded by any non-empty string, such as a space, gets the
    default gray token. *)
Theorem getDifficultyColor_exact_match (label extra : string) :
  label ∈ ["Beginner"; "Intermediate"; "Advanced"] →
  extra ≠ "" →
  getDifficultyColor (label +:+ extra) = "bg-gray-100 text-gray-800" ∧
  getDifficultyColor (extra +:+ label) = "bg-gray-100 text-gray-800".
Proof.
  intros Hlabel Hextra.
  destruct (extended_label_unknown label extra Hlabel Hextra) as [Hafter Hbefore].
  split; apply getDifficultyColor_other; assumption.
Qed.

(** A trailing and a leading space. *)
Lemma getDifficultyColor_exact_match_witness :
  getDifficultyColor "Advanced " = "bg-gray-100 text-gray-800" ∧
  getDifficultyColor " Advanced" = "bg-gray-100 text-gray-800".
Proof.
  apply (getDifficultyColor_exact_match "Advanced" " ").
  - do 2 apply list_elem_of_further. apply list_elem_of_here.
  - discriminate.
Defined.

(** * Further properties of the [map] loops *)

Lemma map_from_preserving {A B} (arr : Store -> list A) (callbackfn : A -> nat -> Eval B) :
  (forall a i, preserves_store (callbackfn a i)) ->
  forall remaining k s,
    map_from arr callbackfn k remaining s
    = (imap (fun j a => fst (callbackfn a (k + j) s)) (take remaining (drop k (arr s))), s).
Proof.
  intros Hcb. induction remaining as [|n IH]; intros k s; [reflexivity|].
  simpl. destruct (arr s !! k) as [kValue|] eqn:Hk.
  - unfold bind. specialize (Hcb kValue k s).
    destruct (callbackfn kValue k s) as [mappedValue s'] eqn:Hcall.
    simpl in Hcb. subst s'. rewrite IH. unfold ret.
    rewrite (drop_S _ _ _ Hk). simpl. rewrite Nat.add_0_r, Hcall. simpl.
    f_equal. f_equal. apply imap_ext. intros j a _. simpl. do 2 f_equal. lia.
  - rewrite IH. apply lookup_ge_None in Hk.
    rewrite !drop_ge by lia. rewrite !take_nil. reflexivity.
Qed.

(** X4.  A [map] whose callback does not write to the store yields one
    result per element of the array, in the order of the array, each being
    what the callback returns for that element and its index; and it leaves
    the store as it found it. *)
Theorem Array_map_of_preserving {A B} (arr : Store -> list A)
    (callbackfn : A -> nat -> Eval B) (s : Store) :
  (∀ a i, preserves_store (callbackfn a i)) →
  Array_map arr callbackfn s
  = (imap (fun index value => fst (callbackfn value index s)) (arr s), s).
Proof.
  intros Hcb. unfold Array_map. rewrite (map_from_preserving _ _ Hcb).
  rewrite drop_0, firstn_all. reflexivity.
Qed.

(** A callback that reads the length of the other array and pairs it with the
    title and the index. *)
Lemma Array_map_of_preserving_witness :
  Array_map st_features
    (fun feature index s =>
       ((Feature.title feature, index, length (st_learningPaths s)), s))
    declared_store
  = ([("Comprehensive Guides", 0, 6); ("Practical Examples", 1, 6);
      ("Best Practices", 2, 6); ("Common Pitfalls", 3, 6)], declared_store).
Proof.
  rewrite Array_map_of_preserving; [reflexivity|].
  intros feature index s. reflexivity.
Defined.

(** * Further properties of the rendered page *)

Lemma path_card_at (s : Store) (i : nat) (path : LearningPath.t) :
  st_learningPaths s !! i = Some path ->
  items_at learning_paths_grid (fst (Index_return s)) !! i
  = Some (learningPathCard path i (topicBadges_of (LearningPath.topics path))).
Proof.
  intros Hpath. rewrite Index_return_value. simpl fst.
  destruct (items_at_page (featureCards_of (st_features s))
              (learningPathCards_of (st_learningPaths s))
              (techTiles_of technologies)) as (_ & -> & _).
  unfold learningPathCards_of. rewrite list_lookup_imap, Hpath. reflexivity.
Qed.

(** X5.  The card of a learning path shows one badge per topic of the path,
    in the order of [topics]: the badges are as many as the topics, their
    texts are the topics, each is a secondary badge of class "text-xs", and
    their keys are their positions. *)
Theorem topic_badges_of_card (s : Store) (i : nat) (path : LearningPath.t) :
  st_learningPaths s !! i = Some path →
  ∃ card : Node,
    items_at learning_paths_grid (fst (Index_return s)) !! i = Some card ∧
    length (items_at topic_badges card) = length (LearningPath.topics path) ∧
    textContent <$> items_at topic_badges card = LearningPath.topics path ∧
    Forall (fun badge => is_element (Comp Badge) "text-xs" badge = true
                         ∧ attribute "variant" badge = Some "secondary")
           (items_at topic_badges card) ∧
    key_of <$> items_at topic_badges card
      = (fun j => Some (KeyIndex j)) <$> seq 0 (length (LearningPath.topics path)).
Proof.
  intros Hpath. eexists. split; [apply (path_card_at s i path Hpath)|].
  change (items_at topic_badges (learningPathCard path i _))
    with (topicBadges_of (LearningPath.topics path)).
  split; [apply length_imap|]. split; [apply topicBadges_text|]. split.
  - apply Forall_forall. intros badge Hin.
    apply elem_of_lookup_imap_1 in Hin as (j & topic & -> & _). split; reflexivity.
  - unfold topicBadges_of. rewrite fmap_imap.
    apply (imap_seq_0 _ (fun j => Some (KeyIndex j))).
Qed.

Lemma topic_badges_of_card_witness :
  ∃ card : Node,
    items_at learning_paths_grid (fst (Index_return declared_store)) !! 3 = Some card ∧
    length (items_at topic_badges card) = 4 ∧
    textContent <$> items_at topic_badges card
      = ["Types & Interfaces"; "Generics"; "React Integration"; "Advanced Patterns"] ∧
    Forall (fun badge => is_element (Comp Badge) "text-xs" badge = true
                         ∧ attribute "variant" badge = Some "secondary")
           (items_at topic_badges card) ∧
    key_of <$> items_at topic_badges card
      = [Some (KeyIndex 0); Some (KeyIndex 1); Some (KeyIndex 2); Some (KeyIndex 3)].
Proof.
  apply (topic_badges_of_card declared_store 3
           {| LearningPath.title := "TypeScript Guide";
              LearningPath.description := "Type-safe JavaScript development";
              LearningPath.icon := comp Target [("className", "w-6 h-6")] [];
              LearningPath.topics :=
                ["Types & Interfaces"; "Generics"; "React Integration"; "Advanced Patterns"];
              LearningPath.difficulty := "Advanced";
              LearningPath.color := "bg-indigo-500" |}).
  reflexivity.
Defined.

(** X6.  The keys of the generated elements: the feature cards and the
    learning-path cards are keyed by their positions 0, 1, 2, ... whatever
    the arrays hold, the technology tiles by their names; within each of the
    three arrays no key occurs twice. *)
Theorem generated_keys (s : Store) :
  key_of <$> items_at features_grid (fst (Index_return s))
    = (fun i => Some (KeyIndex i)) <$> seq 0 (length (st_features s)) ∧
  key_of <$> items_at learning_paths_grid (fst (Index_return s))
    = (fun i => Some (KeyIndex i)) <$> seq 0 (length (st_learningPaths s)) ∧
  key_of <$> items_at technologies_grid (fst (Index_return s))
    = (fun tech => Some (KeyString tech))
        <$> ["HTML"; "CSS"; "JavaScript"; "TypeScript"; "React"; "Next.js";
             "TailwindCSS"; "Testing"] ∧
  NoDup (key_of <$> items_at features_grid (fst (Index_return s))) ∧
  NoDup (key_of <$> items_at learning_paths_grid (fst (Index_return s))) ∧
  NoDup (key_of <$> items_at technologies_grid (fst (Index_return s))).
Proof.
  rewrite Index_return_value. simpl fst.
  destruct (items_at_page (featureCards_of (st_features s))
              (learningPathCards_of (st_learningPaths s))
              (techTiles_of technologies)) as (-> & -> & ->).
  assert (Hf : key_of <$> featureCards_of (st_features s)
               = (fun i => Some (KeyIndex i)) <$> seq 0 (length (st_features s))).
  { unfold featureCards_of. rewrite fmap_imap.
    apply (imap_seq_0 _ (fun i => Some (KeyIndex i))). }
  assert (Hp : key_of <$> learningPathCards_of (st_learningPaths s)
               = (fun i => Some (KeyIndex i)) <$> seq 0 (length (st_learningPaths s))).
  { unfold learningPathCards_of. rewrite fmap_imap.
    apply (imap_seq_0 _ (fun i => Some (KeyIndex i))). }
  assert (Hinj : Inj (=) (=) (fun i : nat => Some (KeyIndex i))).
  { intros a b Hab. congruence. }
  rewrite Hf, Hp.
  split; [reflexivity|]. split; [reflexivity|]. split; [reflexivity|].
  split; [apply (NoDup_fmap_2 _), NoDup_seq|].
  split; [apply (NoDup_fmap_2 _), NoDup_seq|].
  vm_compute.
  repeat (apply NoDup_cons; split;
          [ intros Hin;
            repeat (apply elem_of_cons in Hin as [Hin|Hin]; [discriminate Hin|]);
            apply elem_of_nil in Hin; exact Hin | ]).
  apply NoDup_nil. exact I.
Qed.

(** X7.  A learning path whose difficulty is none of the three labels is
    rendered like any other: its card is at the position of the path, and
    its badge shows the difficulty as it is, in the default gray style. *)
Theorem unknown_difficulty_rendered (s : Store) (i : nat) (path : LearningPath.t) :
  st_learningPaths s !! i = Some path →
  LearningPath.difficulty path ∉ ["Beginner"; "Intermediate"; "Advanced"] →
  ∃ card : Node,
    items_at learning_paths_grid (fst (Index_return s)) !! i = Some card ∧
    node_at difficulty_badge card
      = Some (comp Badge [("className", "bg-gray-100 text-gray-800")]
                   [Text (LearningPath.difficulty path)]).
Proof.
  intros Hpath Hunknown. eexists. split; [apply (path_card_at s i path Hpath)|].
  change (node_at difficulty_badge (learningPathCard path i _))
    with (Some (comp Badge
                  [("className", getDifficultyColor (LearningPath.difficulty path))]
                  [Text (LearningPath.difficulty path)])).
  rewrite (getDifficultyColor_other _ Hunknown). reflexivity.
Qed.

(** A path of difficulty "Expert", alone in the array. *)
Lemma unknown_difficulty_rendered_witness :
  ∃ card : Node,
    items_at learning_paths_grid
      (fst (Index_return
              {| st_learningPaths :=
                   [ {| LearningPath.title := "Testing";
                        LearningPath.description := "Unit and end-to-end tests";
                        LearningPath.icon := comp Trophy [("className", "w-6 h-6")] [];
                        LearningPath.topics := ["Mocks"];
                        LearningPath.difficulty := "Expert";
                        LearningPath.color := "bg-red-500" |} ];
                 st_features := [] |})) !! 0 = Some card ∧
    node_at difficulty_badge card
      = Some (comp Badge [("className", "bg-gray-100 text-gray-800")] [Text "Expert"]).
Proof.
  apply (unknown_difficulty_rendered
           {| st_learningPaths :=
                [ {| LearningPath.title := "Testing";
                     LearningPath.description := "Unit and end-to-end tests";
                     LearningPath.icon := comp Trophy [("className", "w-6 h-6")] [];
                     LearningPath.topics := ["Mocks"];
                     LearningPath.difficulty := "Expert";
                     LearningPath.color := "bg-red-500" |} ];
              st_features := [] |} 0 _ eq_refl).
  simpl. intros Hin.
  repeat (apply elem_of_cons in Hin as [Hin|Hin]; [discriminate Hin|]).
  apply elem_of_nil in Hin. exact Hin.
Defined.

Lemma append_assoc (s1 s2 s3 : string) : (s1 +:+ s2) +:+ s3 = s1 +:+ (s2 +:+ s3).
Proof.
  induction s1 as [|c s1 IH]; [reflexivity|].
  change (String c ((s1 +:+ s2) +:+ s3) = String c (s1 +:+ (s2 +:+ s3))).
  rewrite IH. reflexivity.
Qed.

Lemma text_of_app (ds1 ds2 : list Node) :
  text_of (ds1 ++ ds2) = text_of ds1 +:+ text_of ds2.
Proof.
  induction ds1 as [|d ds1 IH]; [reflexivity|].
  simpl. destruct d; rewrite IH; [symmetry; apply append_assoc | reflexivity..].
Qed.

Lemma text_of_element (type : ElementType) (key : option Key) (props : Props)
    (children ds : list Node) :
  text_of (Element type key props children :: ds) = text_of ds.
Proof. reflexivity. Qed.

Lemma text_of_text (t : string) (ds : list Node) :
  text_of (Text t :: ds) = t +:+ text_of ds.
Proof. reflexivity. Qed.

Lemma topicBadges_text_of (ts : list string) (f : nat -> nat) :
  text_of (flat_map descendants (imap (fun j topic => topicBadge topic (f j)) ts))
  = String.concat "" ts.
Proof.
  revert f. induction ts as [|topic ts IH]; intros f; [reflexivity|].
  rewrite imap_cons. simpl flat_map.
  rewrite text_of_element, text_of_text.
  change (imap ((fun j topic => topicBadge topic (f j)) ∘ S) ts)
    with (imap (fun j topic => topicBadge topic ((f ∘ S) j)) ts).
  rewrite (IH (f ∘ S)).
  destruct ts as [|topic' ts]; [apply append_empty_r | reflexivity].
Qed.

(** X8.  What a card displays: a feature card shows the text of its icon,
    then the title, then the description, and nothing else; a learning-path
    card shows the text of its icon, the difficulty, the title, the
    description, the topics in order and the caption of its button. *)
Theorem card_text (feature : Feature.t) (path : LearningPath.t) (index : nat) :
  textContent (featureCard feature index)
    = textContent (Feature.icon feature)
      +:+ Feature.title feature +:+ Feature.description feature
  ∧ textContent (learningPathCard path index
                   (imap (fun topicIndex topic => topicBadge topic topicIndex)
                         (LearningPath.topics path)))
    = textContent (LearningPath.icon path)
      +:+ LearningPath.difficulty path
      +:+ LearningPath.title path
      +:+ LearningPath.description path
      +:+ String.concat "" (LearningPath.topics path)
      +:+ "Start Learning".
Proof.
  change (textContent (Feature.icon feature))
    with (text_of (descendants (Feature.icon feature))).
  change (textContent (LearningPath.icon path))
    with (text_of (descendants (LearningPath.icon path))).
  split.
  - unfold textContent. fold (text_of (descendants (featureCard feature index))).
    unfold featureCard, comp, host. cbn [descendants flat_map app].
    repeat first [ rewrite text_of_element | rewrite text_of_text
                 | rewrite text_of_app | rewrite app_nil_r ].
    cbn [text_of foldr]. rewrite ?append_empty_r, ?append_assoc. reflexivity.
  - unfold textContent.
    fold (text_of (descendants (learningPathCard path index
            (imap (fun topicIndex topic => topicBadge topic topicIndex)
                  (LearningPath.topics path))))).
    unfold learningPathCard, comp, host. cbn [descendants flat_map app].
    repeat first [ rewrite text_of_element | rewrite text_of_text
                 | rewrite text_of_app | rewrite app_nil_r ].
    pose proof (topicBadges_text_of (LearningPath.topics path) id) as Htopics.
    unfold id in Htopics. rewrite Htopics.
    cbn [text_of foldr]. rewrite ?append_empty_r, ?append_assoc. reflexivity.
Qed.

(** ** Selecting elements, structurally *)

Lemma filter_flat_map {A B} (p : B -> bool) (g : A -> list B) (l : list A) :
  List.filter p (flat_map g l) = flat_map (fun x => List.filter p (g x)) l.
Proof.
  induction l as [|x l IH]; [reflexivity|].
  simpl. rewrite List.filter_app, IH. reflexivity.
Qed.

Lemma elements_of_text (type : ElementType) (className t : string) :
  elements_of type className (Text t) = [].
Proof. reflexivity. Qed.

Lemma elements_of_items (type : ElementType) (className : string) (elems : list Node) :
  elements_of type className (Items elems) = elements_among type className elems.
Proof. unfold elements_of. simpl. apply filter_flat_map. Qed.

Lemma elements_of_skip (type : ElementType) (className : string)
    (type' : ElementType) (key : option Key) (props : Props) (children : list Node) :
  is_element type className (Element type' key props children) = false ->
  elements_of type className (Element type' key props children)
  = elements_among type className children.
Proof.
  intros Hno. unfold elements_of.
  change (descendants (Element type' key props children))
    with (Element type' key props children :: flat_map descendants children).
  cbn [List.filter]. rewrite Hno. apply filter_flat_map.
Qed.

Lemma elements_of_take (type : ElementType) (className : string)
    (type' : ElementType) (key : option Key) (props : Props) (children : list Node) :
  is_element type className (Element type' key props children) = true ->
  elements_of type className (Element type' key props children)
  = Element type' key props children :: elements_among type className children.
Proof.
  intros Hyes. unfold elements_of.
  change (descendants (Element type' key props children))
    with (Element type' key props children :: flat_map descendants children).
  cbn [List.filter]. rewrite Hyes. f_equal. apply filter_flat_map.
Qed.

(** Walk down a tree whose elements are known, leaving the selections on its
    unknown parts in place. *)
Ltac select_elements :=
  repeat first
    [ rewrite elements_of_skip by reflexivity
    | rewrite elements_of_take by reflexivity
    | rewrite elements_of_items
    | rewrite elements_of_text
    | progress cbn [elements_among flat_map app] ];
  rewrite ?app_nil_r.

Lemma elements_among_imap_self {A} (type : ElementType) (className : string)
    (f : nat -> A -> Node) (l : list A) :
  (forall i x, x ∈ l -> elements_of type className (f i x) = [f i x]) ->
  elements_among type className (imap f l) = imap f l.
Proof.
  revert f. induction l as [|x l IH]; intros f Hf; [reflexivity|].
  rewrite imap_cons. unfold elements_among in *. simpl flat_map.
  rewrite (Hf 0 x) by apply list_elem_of_here.
  rewrite (IH (f ∘ S)); [reflexivity|].
  intros i y Hy. apply Hf. apply list_elem_of_further, Hy.
Qed.

Lemma elements_among_imap_none {A} (type : ElementType) (className : string)
    (f : nat -> A -> Node) (l : list A) :
  (forall i x, x ∈ l -> elements_of type className (f i x) = []) ->
  elements_among type className (imap f l) = [].
Proof.
  revert f. induction l as [|x l IH]; intros f Hf; [reflexivity|].
  rewrite imap_cons. unfold elements_among in *. simpl flat_map.
  rewrite (Hf 0 x) by apply list_elem_of_here.
  rewrite (IH (f ∘ S)); [reflexivity|].
  intros i y Hy. apply Hf. apply list_elem_of_further, Hy.
Qed.

(** What the selections find in the static part of the page. *)
Lemma elements_of_page (type : ElementType) (className : string)
    (featureCards pathCards techTiles : list Node) :
  (type, className) ∈ [(Comp Card, featureCardClass);
                       (Comp Card, learningPathCardClass);
                       (Host "div", techTileClass)] ->
  elements_of type className (page featureCards pathCards techTiles)
  = (elements_among type className featureCards
     ++ elements_among type className pathCards
     ++ elements_among type className techTiles)%list.
Proof.
  intros Hkind.
  repeat (apply elem_of_cons in Hkind as [Hkind|Hkind]; [injection Hkind as -> ->|]);
    try (apply elem_of_nil in Hkind; contradiction);
    unfold page, heroSection, featuresSection, learningPathsSection,
      documentationSection, ctaSection, host, comp;
    select_elements; rewrite <- ?app_assoc; reflexivity.
Qed.

(** What the three selections find in a generated element. *)
Lemma elements_of_featureCard (feature : Feature.t) (index : nat) :
  rendered_feature_cards (featureCard feature index)
    = featureCard feature index :: rendered_feature_cards (Feature.icon feature) ∧
  rendered_learning_path_cards (featureCard feature index)
    = rendered_learning_path_cards (Feature.icon feature) ∧
  rendered_tech_tiles (featureCard feature index)
    = rendered_tech_tiles (Feature.icon feature).
Proof.
  unfold rendered_feature_cards, rendered_learning_path_cards, rendered_tech_tiles.
  split; [|split]; unfold featureCard at 1, comp, host; select_elements; reflexivity.
Qed.

Lemma elements_among_topicBadges (type : ElementType) (className : string)
    (ts : list string) :
  type ≠ Comp Badge ->
  elements_among type className (topicBadges_of ts) = [].
Proof.
  intros Hne. apply elements_among_imap_none. intros j topic _.
  unfold topicBadge. rewrite elements_of_skip; [reflexivity|].
  unfold is_element. rewrite bool_decide_eq_false_2 by congruence. reflexivity.
Qed.

Lemma elements_of_learningPathCard (path : LearningPath.t) (index : nat) :
  rendered_feature_cards
      (learningPathCard path index (topicBadges_of (LearningPath.topics path)))
    = rendered_feature_cards (LearningPath.icon path) ∧
  rendered_learning_path_cards
      (learningPathCard path index (topicBadges_of (LearningPath.topics path)))
    = learningPathCard path index (topicBadges_of (LearningPath.topics path))
      :: rendered_learning_path_cards (LearningPath.icon path) ∧
  rendered_tech_tiles
      (learningPathCard path index (topicBadges_of (LearningPath.topics path)))
    = rendered_tech_tiles (LearningPath.icon path).
Proof.
  unfold rendered_feature_cards, rendered_learning_path_cards, rendered_tech_tiles.
  split; [|split]; unfold learningPathCard at 1, comp, host; select_elements;
    rewrite elements_among_topicBadges by discriminate;
    rewrite ?app_nil_r; reflexivity.
Qed.

Lemma elements_of_techTile (tech : string) :
  rendered_feature_cards (techTile tech) = [] ∧
  rendered_learning_path_cards (techTile tech) = [] ∧
  rendered_tech_tiles (techTile tech) = [techTile tech].
Proof.
  unfold rendered_feature_cards, rendered_learning_path_cards, rendered_tech_tiles.
  split; [|split]; unfold techTile at 1, host; select_elements; reflexivity.
Qed.

(** X9.  When no icon in the two arrays contains a card or a tile of the
    page's own kinds (as is the case for the icons of the source, which have
    no children), the feature cards, learning-path cards and technology
    tiles found anywhere in the returned tree are exactly the contents of
    the three grids, in order; in particular their numbers are the lengths of
    [features], of [learningPaths] and of the list of technologies. *)
Theorem generated_elements_general (s : Store) :
  Forall (fun feature => generated_free (Feature.icon feature)) (st_features s) →
  Forall (fun path => generated_free (LearningPath.icon path)) (st_learningPaths s) →
  rendered_feature_cards (fst (Index_return s))
    = items_at features_grid (fst (Index_return s)) ∧
  rendered_learning_path_cards (fst (Index_return s))
    = items_at learning_paths_grid (fst (Index_return s)) ∧
  rendered_tech_tiles (fst (Index_return s))
    = items_at technologies_grid (fst (Index_return s)) ∧
  length (rendered_feature_cards (fst (Index_return s))) = length (st_features s) ∧
  length (rendered_learning_path_cards (fst (Index_return s)))
    = length (st_learningPaths s) ∧
  length (rendered_tech_tiles (fst (Index_return s))) = 8.
Proof.
  intros Hfeatures Hpaths.
  rewrite Forall_forall in Hfeatures. rewrite Forall_forall in Hpaths.
  rewrite Index_return_value. simpl fst.
  destruct (items_at_page (featureCards_of (st_features s))
              (learningPathCards_of (st_learningPaths s))
              (techTiles_of technologies)) as (-> & -> & ->).
  assert (Hf : rendered_feature_cards
                 (page (featureCards_of (st_features s))
                       (learningPathCards_of (st_learningPaths s))
                       (techTiles_of technologies))
               = featureCards_of (st_features s)).
  { unfold rendered_feature_cards. rewrite elements_of_page by in_literal.
    unfold featureCards_of at 1, learningPathCards_of, techTiles_of.
    rewrite (elements_among_imap_self _ _ _ (st_features s)),
      (elements_among_imap_none _ _ _ (st_learningPaths s)),
      (elements_among_imap_none _ _ _ technologies), app_nil_r.
    - reflexivity.
    - intros i tech _. apply elements_of_techTile.
    - intros i path Hin.
      destruct (elements_of_learningPathCard path i) as (Hcard & _ & _).
      unfold rendered_feature_cards in Hcard. rewrite Hcard. apply (Hpaths path Hin).
    - intros i feature Hin.
      destruct (elements_of_featureCard feature i) as (Hcard & _ & _).
      unfold rendered_feature_cards in Hcard. rewrite Hcard. f_equal.
      apply (Hfeatures feature Hin). }
  assert (Hp : rendered_learning_path_cards
                 (page (featureCards_of (st_features s))
                       (learningPathCards_of (st_learningPaths s))
                       (techTiles_of technologies))
               = learningPathCards_of (st_learningPaths s)).
  { unfold rendered_learning_path_cards. rewrite elements_of_page by in_literal.
    unfold featureCards_of, learningPathCards_of at 1, techTiles_of.
    rewrite (elements_among_imap_none _ _ _ (st_features s)),
      (elements_among_imap_self _ _ _ (st_learningPaths s)),
      (elements_among_imap_none _ _ _ technologies), app_nil_r.
    - reflexivity.
    - intros i tech _. apply elements_of_techTile.
    - intros i path Hin.
      destruct (elements_of_learningPathCard path i) as (_ & Hcard & _).
      unfold rendered_learning_path_cards in Hcard. rewrite Hcard. f_equal.
      apply (Hpaths path Hin).
    - intros i feature Hin.
      destruct (elements_of_featureCard feature i) as (_ & Hcard & _).
      unfold rendered_learning_path_cards in Hcard. rewrite Hcard.
      apply (Hfeatures feature Hin). }
  assert (Ht : rendered_tech_tiles
                 (page (featureCards_of (st_features s))
                       (learningPathCards_of (st_learningPaths s))
                       (techTiles_of technologies))
               = techTiles_of technologies).
  { unfold rendered_tech_tiles. rewrite elements_of_page by in_literal.
    unfold featureCards_of, learningPathCards_of, techTiles_of at 1.
    rewrite (elements_among_imap_none _ _ _ (st_features s)),
      (elements_among_imap_none _ _ _ (st_learningPaths s)),
      (elements_among_imap_self _ _ _ technologies).
    - reflexivity.
    - intros i tech _. apply elements_of_techTile.
    - intros i path Hin.
      destruct (elements_of_learningPathCard path i) as (_ & _ & Hcard).
      unfold rendered_tech_tiles in Hcard. rewrite Hcard. apply (Hpaths path Hin).
    - intros i feature Hin.
      destruct (elements_of_featureCard feature i) as (_ & _ & Hcard).
      unfold rendered_tech_tiles in Hcard. rewrite Hcard.
      apply (Hfeatures feature Hin). }
  rewrite Hf, Hp, Ht.
  unfold featureCards_of, learningPathCards_of, techTiles_of.
  rewrite !length_imap. repeat split; reflexivity.
Qed.

(** The arrays of the source: their icons are childless icon elements. *)
Lemma generated_elements_general_witness :
  rendered_feature_cards (fst (Index_return declared_store))
    = items_at features_grid (fst (Index_return declared_store)) ∧
  rendered_learning_path_cards (fst (Index_return declared_store))
    = items_at learning_paths_grid (fst (Index_return declared_store)) ∧
  rendered_tech_tiles (fst (Index_return declared_store))
    = items_at technologies_grid (fst (Index_return declared_store)) ∧
  length (rendered_feature_cards (fst (Index_return declared_store))) = 4 ∧
  length (rendered_learning_path_cards (fst (Index_return declared_store))) = 6 ∧
  length (rendered_tech_tiles (fst (Index_return declared_store))) = 8.
Proof.
  apply (generated_elements_general declared_store).
  - repeat (apply Forall_cons; split; [repeat split|]). apply Forall_nil. exact I.
  - repeat (apply Forall_cons; split; [repeat split|]). apply Forall_nil. exact I.
Defined.

(** The condition on the icons cannot be dropped: a feature whose icon is
    itself a feature card puts two feature cards on the page. *)
Example nested_card_icon :
  let inner := {| Feature.icon := Text "*"; Feature.title := "inner";
                  Feature.description := "" |} in
  let outer := {| Feature.icon := featureCard inner 0; Feature.title := "outer";
                  Feature.description := "" |} in
  let s := {| st_learningPaths := []; st_features := [outer] |} in
  length (st_features s) = 1 ∧
  length (rendered_feature_cards (fst (Index_return s))) = 2.
Proof. split; reflexivity. Qed.

(** ** The page determines the data *)

Lemma featureCard_inj (f g : Feature.t) (i j : nat) :
  featureCard f i = featureCard g j -> f = g.
Proof.
  unfold featureCard, comp, host. intros Heq.
  injection Heq as _ Hicon Htitle Hdescription.
  destruct f, g. simpl in *. congruence.
Qed.

Lemma topicBadges_of_inj (ts1 ts2 : list string) :
  topicBadges_of ts1 = topicBadges_of ts2 -> ts1 = ts2.
Proof.
  intros Heq. apply (f_equal (fmap textContent)) in Heq.
  rewrite !topicBadges_text in Heq. exact Heq.
Qed.

Lemma learningPathCard_inj (p q : LearningPath.t) (i j : nat) :
  learningPathCard p i (topicBadges_of (LearningPath.topics p))
  = learningPathCard q j (topicBadges_of (LearningPath.topics q)) -> p = q.
Proof.
  unfold learningPathCard, comp, host. intros Heq.
  injection Heq as _ Hcolor _ Hicon _ Hdifficulty Htitle Hdescription Htopics.
  change (LearningPath.color p = LearningPath.color q) in Hcolor.
  apply topicBadges_of_inj in Htopics.
  destruct p, q. simpl in *. congruence.
Qed.

Lemma imap_inj {A B} (f : nat -> A -> B) (l1 l2 : list A) :
  (forall i x y, f i x = f i y -> x = y) ->
  imap f l1 = imap f l2 -> l1 = l2.
Proof.
  intros Hf Heq. apply list_eq. intros i.
  apply (f_equal (fun l => l !! i)) in Heq. rewrite !list_lookup_imap in Heq.
  destruct (l1 !! i) as [x|], (l2 !! i) as [y|]; simpl in Heq;
    try discriminate Heq; [|reflexivity].
  injection Heq as Heq. f_equal. exact (Hf i x y Heq).
Qed.

(** X10.  The rendered page determines the arrays: two stores for which the
    [return] statement yields the same tree hold the same features and the
    same learning paths, element by element and field by field. *)
Theorem Index_return_injective (s1 s2 : Store) :
  fst (Index_return s1) = fst (Index_return s2) → s1 = s2.
Proof.
  rewrite !Index_return_value. simpl fst. intros Heq.
  assert (Hf : featureCards_of (st_features s1) = featureCards_of (st_features s2)).
  { apply (f_equal (items_at features_grid)) in Heq. exact Heq. }
  assert (Hp : learningPathCards_of (st_learningPaths s1)
               = learningPathCards_of (st_learningPaths s2)).
  { apply (f_equal (items_at learning_paths_grid)) in Heq. exact Heq. }
  apply imap_inj in Hf; [|intros i f g; apply featureCard_inj].
  apply imap_inj in Hp; [|intros i p q; apply learningPathCard_inj].
  destruct s1, s2. simpl in *. congruence.
Qed.

Lemma Index_return_injective_witness :
  {| st_learningPaths := learningPaths; st_features := features |} = declared_store.
Proof.
  apply (Index_return_injective
           {| st_learningPaths := learningPaths; st_features := features |}
           declared_store).
  reflexivity.
Defined.
